(** * Verification of the Employees workbook configuration (src/index.ts)

    The development embeds the guard library, the two validator factories,
    the [runValidations] aggregator and the sheet/field configuration of
    [src/index.ts], and proves the properties of the specification about
    them. *)

From Stdlib Require Import String Ascii List Bool Arith NArith ZArith Lia.
From Stdlib Require Import SpecFloat.
Import ListNotations.

Set Implicit Arguments.
Set Warnings "-register-all".

(* ================================================================= *)
(** * Part I: the embedding *)
(* ================================================================= *)

(** ** Runtime values *)

(** A JavaScript string is a sequence of UTF-16 code units.  Cell values
    come from outside the program, so they are kept in that form; the
    string literals of the configuration (labels, descriptions, message
    texts) are plain ASCII and are kept as [string]. *)
Definition code_unit := N.
Definition jsstring := list code_unit.

Definition js (s : string) : jsstring :=
  map N_of_ascii (list_ascii_of_string s).

(** [new Message(text, level, stage)] of [@flatfile/configure]: the three
    constructor arguments as given. *)
Record Message : Type := new_Message
  { text : string; kind : string; stage : string }.

(** The values a variable of type [unknown] can hold.  Numbers are IEEE 754
    doubles ([spec_float]: signed zeros, infinities, NaN, finite values).
    [VOther] stands for the remaining values (symbols, functions, objects
    that are neither a [Message] nor an array), told apart by an
    identifier. *)
Inductive value : Type :=
| VUndefined
| VNull
| VBool (b : bool)
| VNumber (f : spec_float)
| VBigInt (z : Z)
| VString (s : jsstring)
| VMessage (m : Message)
| VArray (items : list value)
| VOther (id : nat).

(** ** Guards (index.ts, lines 41-148) *)

Module Guards.

(** [x === null] *)
Definition isNull (x : value) : bool :=
  match x with VNull => true | _ => false end.

(** [x === undefined] *)
Definition isUndefined (x : value) : bool :=
  match x with VUndefined => true | _ => false end.

(** [typeof x === 'string'] *)
Definition isString (x : value) : bool :=
  match x with VString _ => true | _ => false end.

(** [typeof x === 'number'] *)
Definition isNumber (x : value) : bool :=
  match x with VNumber _ => true | _ => false end.

(** [x === ''], strict equality with the empty string. *)
Definition strict_eq_empty (x : value) : bool :=
  match x with VString [] => true | _ => false end.

(** [x === 0]: strict equality with the number zero; [-0 === 0] holds and
    [0n === 0] does not. *)
Definition strict_eq_zero (x : value) : bool :=
  match x with VNumber (S754_zero _) => true | _ => false end.

(** [x === false] *)
Definition strict_eq_false (x : value) : bool :=
  match x with VBool false => true | _ => false end.

(** [Number.isNaN(x)]: no coercion, true for the number NaN only. *)
Definition Number_isNaN (x : value) : bool :=
  match x with VNumber S754_nan => true | _ => false end.

Definition isNil (x : value) : bool :=
  isNull x || isUndefined x || (isString x && strict_eq_empty x).

Definition isNotNil (x : value) : bool := negb (isNil x).

Definition isFalsy (x : value) : bool :=
  strict_eq_zero x || Number_isNaN x || strict_eq_false x || isNil x.

Definition isTruthy (x : value) : bool := negb (isFalsy x).

End Guards.
Import Guards.

(** ** Regular expressions

    [RegExp.prototype.test] is part of the language runtime.  It is modelled
    after the pattern semantics of ECMA-262 (section 22.2.2), restricted to
    the syntax the program's literals use: matchers in continuation-passing
    style over the end index of the current match state.  The supported
    syntax has no capture groups, so a match state is its end index, and no
    flags, so [Canonicalize] is the identity, [^] and [$] only hold at the
    ends of the input and a match does not depend on [lastIndex]. *)

Module RegExp.

Inductive regex : Type :=
| Empty
| AssertStart                                   (* ^ *)
| AssertEnd                                     (* $ *)
| Dot                                           (* . *)
| Char (c : code_unit)
| Class (invert : bool) (ranges : list (code_unit * code_unit))
| Seq (r1 r2 : regex)
| Disj (r1 r2 : regex)
| Quant (r : regex) (min : nat) (max : option nat) (greedy : bool).

(** LineTerminator: LF, CR, LINE SEPARATOR, PARAGRAPH SEPARATOR. *)
Definition isLineTerminator (ch : code_unit) : bool :=
  (N.eqb ch 10 || N.eqb ch 13 || N.eqb ch 8232 || N.eqb ch 8233)%N.

Definition inRange (ch : code_unit) (r : code_unit * code_unit) : bool :=
  (N.leb (fst r) ch && N.leb ch (snd r))%N.

Definition MatchState := nat.
Definition MatchResult := option MatchState.
Definition Continuation := MatchState -> MatchResult.
Definition Matcher := MatchState -> Continuation -> MatchResult.

Section Pattern.

Variable Input : jsstring.

(** CharacterSetMatcher: fails at the end of the input, otherwise tests the
    code unit at the end index and advances by one. *)
Definition CharacterSetMatcher (A : code_unit -> bool) (invert : bool)
  : Matcher :=
  fun x c =>
    match nth_error Input x with
    | None => None
    | Some ch => if xorb (A ch) invert then c (S x) else None
    end.

(** RepeatMatcher (22.2.2.3.1).  Every pass through [d] either lowers [min]
    or has moved the end index forward, so [fuel] bounds the number of
    passes; [compile] supplies enough of it. *)
Fixpoint RepeatMatcher (fuel : nat) (m : Matcher) (min : nat)
    (max : option nat) (greedy : bool) (x : MatchState) (c : Continuation)
  : MatchResult :=
  match fuel with
  | O => None
  | S fuel' =>
      match max with
      | Some O => c x
      | _ =>
          let d : Continuation := fun y =>
            if (min =? 0) && (y =? x) then None
            else RepeatMatcher fuel' m (pred min) (option_map pred max)
                               greedy y c in
          if negb (min =? 0) then m x d
          else if negb greedy then
            match c x with Some z => Some z | None => m x d end
          else
            match m x d with Some z => Some z | None => c x end
      end
  end.

Fixpoint compile (r : regex) : Matcher :=
  match r with
  | Empty => fun x c => c x
  | AssertStart => fun x c => if x =? 0 then c x else None
  | AssertEnd => fun x c => if x =? length Input then c x else None
  | Dot => CharacterSetMatcher (fun ch => negb (isLineTerminator ch)) false
  | Char a => CharacterSetMatcher (N.eqb a) false
  | Class invert ranges =>
      CharacterSetMatcher (fun ch => existsb (inRange ch) ranges) invert
  | Seq r1 r2 => fun x c => compile r1 x (fun y => compile r2 y c)
  | Disj r1 r2 => fun x c =>
      match compile r1 x c with Some z => Some z | None => compile r2 x c end
  | Quant r' min max greedy => fun x c =>
      RepeatMatcher (S (min + (length Input - x))) (compile r') min max
                    greedy x c
  end.

(** The loop of RegExpBuiltinExec for a regex that is neither global nor
    sticky: try the pattern at [lastIndex] = 0, 1, ... until it matches or
    [lastIndex] exceeds the length of the input ([tries] attempts left). *)
Fixpoint exec_loop (m : Matcher) (lastIndex tries : nat) : MatchResult :=
  match tries with
  | O => None
  | S tries' =>
      match m lastIndex (fun y => Some y) with
      | Some e => Some e
      | None => exec_loop m (S lastIndex) tries'
      end
  end.

End Pattern.

Definition exec (r : regex) (S : jsstring) : MatchResult :=
  exec_loop (compile S r) 0 (Datatypes.S (length S)).

(** [regex.test(S)] for a string [S]. *)
Definition test (r : regex) (S : jsstring) : bool :=
  match exec r S with Some _ => true | None => false end.

End RegExp.

(** ** Effects

    A function call may change the state of the world and either returns a
    value or throws.  Computations pass the world [W] along explicitly and
    stop at the first throw. *)

Inductive thrown : Type :=
| TypeError
| Thrown (v : value).

Inductive completion (A : Type) : Type :=
| Normal (a : A)
| Throw (e : thrown).
Arguments Throw {A} e.

Definition Eff (W A : Type) : Type := W -> completion A * W.

Definition ret {W A : Type} (a : A) : Eff W A := fun w => (Normal a, w).

Definition throw {W A : Type} (e : thrown) : Eff W A := fun w => (Throw e, w).

Definition bind {W A B : Type} (m : Eff W A) (k : A -> Eff W B) : Eff W B :=
  fun w =>
    match m w with
    | (Normal a, w') => k a w'
    | (Throw e, w') => (Throw e, w')
    end.

Declare Scope eff_scope.
Delimit Scope eff_scope with eff.
Notation "x <- m ;; k" := (bind m (fun x => k))
  (at level 61, m at next level, right associativity) : eff_scope.
Open Scope eff_scope.

(** A check is a function of no argument, [() => void | Message]; the
    computation below is what calling it does. *)
Definition Check (W : Type) : Type := Eff W value.

(** ** Field validations (index.ts, lines 154-183) *)

(** What a validator can be handed: a string, as its parameter type says,
    or one of the two absent values, which the type checker does not keep
    out at run time. *)
Inductive cell : Type :=
| CString (s : jsstring)
| CNull
| CUndefined.

Definition value_of_cell (v : cell) : value :=
  match v with
  | CString s => VString s
  | CNull => VNull
  | CUndefined => VUndefined
  end.

(** ToString on these values. *)
Definition ToString (v : cell) : jsstring :=
  match v with
  | CString s => s
  | CNull => js "null"
  | CUndefined => js "undefined"
  end.

Fixpoint isPrefixOf (p s : jsstring) : bool :=
  match p, s with
  | [], _ => true
  | _ :: _, [] => false
  | a :: p', b :: s' => N.eqb a b && isPrefixOf p' s'
  end.

(** [String.prototype.includes]: [searchString] occurs somewhere in [s]. *)
Fixpoint String_includes (s searchString : jsstring) : bool :=
  isPrefixOf searchString s
  || match s with
     | [] => false
     | _ :: s' => String_includes s' searchString
     end.

Module Validation.
Import RegExp.

Section Validators.

Context {W : Type}.

(** [value.includes(searchString)]: reading a property of [null] or
    [undefined] throws a TypeError. *)
Definition call_includes (value : cell) (searchString : jsstring)
  : Eff W bool :=
  match value with
  | CString s => ret (String_includes s searchString)
  | CNull | CUndefined => throw TypeError
  end.

(** [regex.test(value)]: the argument is converted with ToString. *)
Definition call_test (regex : regex) (value : cell) : Eff W bool :=
  ret (test regex (ToString value)).

Definition validateEmail (value : cell) : Check W :=
  found <- call_includes value (js "@") ;;
  if negb found then
    ret (VMessage (new_Message "Invalid email address." "error" "validate"))
  else ret VUndefined.

Definition validateRegex (regex : regex) (value : cell) : Check W :=
  matched <- call_test regex value ;;
  if isFalsy (VBool matched) then
    ret (VMessage
           (new_Message "Value does not meet required format." "error"
                        "validate"))
  else ret VUndefined.

(** [Array.prototype.reduce] with an initial value: the callback is called
    on the elements from left to right, threading the accumulator. *)
Fixpoint reduce {A B : Type} (callback : A -> B -> Eff W A) (l : list B)
    (acc : A) : Eff W A :=
  match l with
  | [] => ret acc
  | x :: l' => acc' <- callback acc x ;; reduce callback l' acc'
  end.

(** [fns.reduce((acc, fn) => [...acc, fn()], []).filter(isNotNil)] *)
Definition runValidations (fns : list (Check W)) : Eff W (list value) :=
  arr <- reduce (fun acc fn => r <- fn ;; ret (acc ++ [r])) fns [] ;;
  ret (filter isNotNil arr).

End Validators.

(** The two regular expression literals of the configuration. *)

(** An Alternative is evaluated term after term, from the empty one. *)
Definition alternative (terms : list regex) : regex :=
  fold_left Seq terms Empty.

(** [/^.{8,72}$/] *)
Definition re_8_72 : regex :=
  alternative [AssertStart; Quant Dot 8 (Some 72) true; AssertEnd].

(** [/^[a-zA-Z0-9]+$/] *)
Definition re_alnum : regex :=
  alternative
    [AssertStart;
     Quant (Class false [(97, 122); (65, 90); (48, 57)]%N) 1 None true;
     AssertEnd].

End Validation.
Import Validation.

(** ** The configuration (index.ts, lines 189-1083) *)

Module Schema.

Local Open Scope string_scope.
Local Open Scope list_scope.

Inductive FieldKind : Type :=
| KText | KNumber | KOption | KReference | KSmartDate.

Record StageVisibility : Type :=
  { mapping : bool; review : bool; export : bool }.

Section Config.

Context {W : Type}.

(** The object literal handed to a field constructor.  Properties a literal
    leaves out are [None]. *)
Record FieldOptions : Type :=
  { label : string;
    required : bool;
    primary : bool;
    unique : bool;
    description : option string;
    stageVisibility : StageVisibility;
    options : option (list (string * string));
    sheetKey : option string;
    foreignKey : option string;
    relationship : option string;
    fString : option string;
    validate : option (cell -> Eff W (list value)) }.

Definition props (label : string) (required primary unique : bool)
    (description : option string) (stageVisibility : StageVisibility)
  : FieldOptions :=
  {| label := label; required := required; primary := primary;
     unique := unique; description := description;
     stageVisibility := stageVisibility; options := None;
     sheetKey := None; foreignKey := None; relationship := None;
     fString := None; validate := None |}.

Definition with_options (o : list (string * string)) (p : FieldOptions)
  : FieldOptions :=
  {| label := label p; required := required p; primary := primary p;
     unique := unique p; description := description p;
     stageVisibility := stageVisibility p; options := Some o;
     sheetKey := sheetKey p; foreignKey := foreignKey p;
     relationship := relationship p; fString := fString p;
     validate := validate p |}.

Definition with_reference (sheet field rel : string) (p : FieldOptions)
  : FieldOptions :=
  {| label := label p; required := required p; primary := primary p;
     unique := unique p; description := description p;
     stageVisibility := stageVisibility p; options := options p;
     sheetKey := Some sheet; foreignKey := Some field;
     relationship := Some rel; fString := fString p;
     validate := validate p |}.

Definition with_fString (f : string) (p : FieldOptions) : FieldOptions :=
  {| label := label p; required := required p; primary := primary p;
     unique := unique p; description := description p;
     stageVisibility := stageVisibility p; options := options p;
     sheetKey := sheetKey p; foreignKey := foreignKey p;
     relationship := relationship p; fString := Some f;
     validate := validate p |}.

Definition with_validate (h : cell -> Eff W (list value)) (p : FieldOptions)
  : FieldOptions :=
  {| label := label p; required := required p; primary := primary p;
     unique := unique p; description := description p;
     stageVisibility := stageVisibility p; options := options p;
     sheetKey := sheetKey p; foreignKey := foreignKey p;
     relationship := relationship p; fString := fString p;
     validate := Some h |}.

(** A field: the constructor that built it and the options it was given. *)
Record Field : Type := { ftype : FieldKind; config : FieldOptions }.

(** The field constructors of [@flatfile/configure]. *)
Definition TextField (o : FieldOptions) : Field :=
  {| ftype := KText; config := o |}.
Definition NumberField (o : FieldOptions) : Field :=
  {| ftype := KNumber; config := o |}.
Definition OptionField (o : FieldOptions) : Field :=
  {| ftype := KOption; config := o |}.
Definition ReferenceField (o : FieldOptions) : Field :=
  {| ftype := KReference; config := o |}.

(** Modelled from the spec: [SmartDateField] is imported from
    [./SmartDateField], which is not part of the sources at hand.  The
    specification describes it as a date field type that takes a format
    string and exposes the same field contract (label, required,
    stageVisibility, ...) as the other fields. *)
Definition SmartDateField (o : FieldOptions) : Field :=
  {| ftype := KSmartDate; config := o |}.

(** [new Sheet(name, fields)]: the fields in the order of the literal. *)
Record Sheet : Type := new_Sheet
  { sheet_name : string; sheet_fields : list (string * Field) }.

Record Workbook : Type := new_Workbook
  { wb_name : string;
    wb_slug : string;
    wb_namespace : string;
    sheets : list (string * Sheet) }.

Record SpaceConfig : Type := new_SpaceConfig
  { sc_name : string;
    sc_slug : string;
    workbookConfigs : list (string * Workbook) }.

(** The option tables imported from [./fragments/countries] and
    [./fragments/timezones]. *)
Variables ListCountriesFragment ListTimeZoneFragment : list (string * string).

Definition dquote : string := String (ascii_of_nat 34) EmptyString.

Definition Employees : Sheet :=
  new_Sheet "Employees"
  [
    ("id", TextField
       (props "Id" true true true
         (Some "Every entry must be unique")
         {| mapping := true; review := true; export := true |}));
    ("FirstName", TextField
       (props "FirstName" true false false
         None
         {| mapping := true; review := true; export := true |}));
    ("LastName", TextField
       (props "LastName" true false false
         None
         {| mapping := true; review := true; export := true |}));
    ("Salutation", TextField
       (props "Salutation" false false false
         None
         {| mapping := true; review := true; export := true |}));
    ("Address", TextField
       (props "Address" false false false
         None
         {| mapping := true; review := true; export := true |}));
    ("SuiteNumber", TextField
       (props "Suite Number" false false false
         None
         {| mapping := true; review := true; export := true |}));
    ("City", TextField
       (props "City" false false false
         None
         {| mapping := true; review := true; export := true |}));
    ("Province", TextField
       (props "Province" false false false
         (Some "Must be a valid Provincial/State/Subdivision ISO3166-2 Code of Country in Column [Country]")
         {| mapping := true; review := true; export := true |}));
    ("Country", OptionField
       (with_options ListCountriesFragment
        (props "Country" false false false
         (Some "Must be a valid ISO3166 Country Code")
         {| mapping := true; review := true; export := true |})));
    ("PostalCode", TextField
       (props "Postal Code" false false false
         None
         {| mapping := true; review := true; export := true |}));
    ("MainPhoneNumber", TextField
       (props "Main Phone Number" false false false
         None
         {| mapping := true; review := true; export := true |}));
    ("PersonalPhoneNumber", TextField
       (props "Personal Phone Number" false false false
         None
         {| mapping := true; review := true; export := true |}));
    ("OtherPhoneNumber", TextField
       (props "Other Phone Number" false false false
         None
         {| mapping := true; review := true; export := true |}));
    ("FaxNumber", TextField
       (props "Fax Phone Number" false false false
         None
         {| mapping := true; review := true; export := true |}));
    ("JobTitle", TextField
       (props "Job Title" false false false
         None
         {| mapping := true; review := true; export := true |}));
    ("EmailAddress", TextField
       (with_validate (fun value => runValidations [validateEmail value])
        (props "Email Address" true false true
         (Some "Every entry must be unique. Must be a valid e-mail address")
         {| mapping := true; review := true; export := true |})));
    ("Password", TextField
       (with_validate (fun value => runValidations [validateRegex re_8_72 value])
        (props "Password" true false false
         (Some "Password: Required minimum of 8 characters and maximum 72 characters")
         {| mapping := true; review := true; export := true |})));
    ("DateOfBirth", SmartDateField
       (with_fString "yyyy-MM-dd"
        (props "Date Of Birth" false false false
         (Some "Must be a valid ISO8601 formatted date (YYYY-MM-DD)")
         {| mapping := true; review := true; export := true |})));
    ("Gender", OptionField
       (with_options [("Male", "Male"); ("Female", "Female"); ("M", "M"); ("F", "F"); ("Other", "Other")]
        (props "Gender" false false false
         (Some "Entries must only be one of the following: [Male, Female, M, F, Other]")
         {| mapping := true; review := true; export := true |})));
    ("EmploymentDate", SmartDateField
       (with_fString "yyyy-MM-dd"
        (props "Employment Date" false false false
         (Some "Must be a valid ISO8601 formatted date (YYYY-MM-DD)")
         {| mapping := true; review := true; export := true |})));
    ("TerminationDate", SmartDateField
       (with_fString "yyyy-MM-dd"
        (props "Termination Date" false false false
         (Some "Must be a valid ISO8601 formatted date (YYYY-MM-DD)")
         {| mapping := true; review := true; export := true |})));
    ("Status", OptionField
       (with_options [("Active", "Active"); ("Terminated", "Terminated"); ("Suspended", "Suspended"); ("Hold", "Hold"); ("OnHold", "On Hold"); ("Pending", "Pending"); ("Applicant", "Applicant"); ("Rejected", "Rejected")]
        (props "Status" true false false
         (Some "Entries must only be one of the following: [Active, Terminated, Suspended, Hold, On Hold, Pending, Applicant, Rejected]")
         {| mapping := true; review := true; export := true |})));
    ("PayrollId", TextField
       (with_validate (fun value => runValidations [validateRegex re_alnum value])
        (props "Payroll Id" false false false
         (Some "Alpha Numeric Field")
         {| mapping := true; review := true; export := true |})));
    ("EmploymentType", TextField
       (props "Employment Type" false false false
         (Some "Every entry in this column must also be in the [Name] Column in the sheet [EmploymentTypes]")
         {| mapping := true; review := true; export := true |}));
    ("OvertimeRule", TextField
       (props "Overtime Rule" false false false
         None
         {| mapping := true; review := true; export := true |}));
    ("SINNumber", TextField
       (with_validate (fun value => runValidations [validateRegex re_alnum value])
        (props "SIN Number" false false false
         (Some "Alpha Numeric Field")
         {| mapping := true; review := true; export := true |})));
    ("CertificationNumber", TextField
       (with_validate (fun value => runValidations [validateRegex re_alnum value])
        (props "Certification Number" false false false
         (Some "Alpha Numeric Field")
         {| mapping := true; review := true; export := true |})));
    ("Designation", TextField
       (props "Designation" false false false
         None
         {| mapping := true; review := true; export := true |}));
    ("SeniorityRank", TextField
       (props "Seniority Rank" false false false
         None
         {| mapping := true; review := true; export := true |}));
    ("SeniorityNumber", TextField
       (props "Seniority Number" false false false
         None
         {| mapping := true; review := true; export := true |}));
    ("SeniorityDate", SmartDateField
       (with_fString "yyyy-MM-dd"
        (props "Seniority Date" false false false
         (Some "Must be a valid ISO8601 formatted date (YYYY-MM-DD)")
         {| mapping := true; review := true; export := true |})));
    ("SalaryBase", TextField
       (props "Salary Base" false false false
         None
         {| mapping := true; review := true; export := true |}));
    ("MinDailyCapacity", NumberField
       (props "Min Daily Capacity" false false false
         (Some "Numeric in hours")
         {| mapping := true; review := true; export := true |}));
    ("MaxDailyCapacity", NumberField
       (props "Max Daily Capacity" false false false
         (Some "Numeric in hours")
         {| mapping := true; review := true; export := true |}));
    ("MinWeeklyCapacity", NumberField
       (props "Min Weekly Capacity" false false false
         (Some "Numeric in hours")
         {| mapping := true; review := true; export := true |}));
    ("MaxWeeklyCapacity", NumberField
       (props "Max Weekly Capacity" false false false
         (Some "Numeric in hours")
         {| mapping := true; review := true; export := true |}));
    ("MaxCaseload", NumberField
       (props "Max Caseload" false false false
         None
         {| mapping := true; review := true; export := true |}));
    ("DefaultEmployeeAvailability", OptionField
       (with_options [("Available", "Available"); ("Unavailable", "Unavailable")]
        (props "Default Employee Availability" false false false
         (Some "Entries must only be one of the following: [Available, Unavailable, empty value]")
         {| mapping := true; review := true; export := true |})));
    ("SubmitVisitAttachments", OptionField
       (with_options [("Yes", "Yes"); ("No", "No")]
        (props "Submit Visit Attachments" false false false
         (Some "Answers can either be [yes] or [no]")
         {| mapping := true; review := true; export := true |})));
    ("TravelMode", OptionField
       (with_options [("Driving", "Driving"); ("Biking", "Biking"); ("Walking", "Walking"); ("Transit", "Transit")]
        (props "Travel Mode" false false false
         (Some "Entries must only be one of the following: [Driving, Biking, Walking, Transit, empty value]")
         {| mapping := true; review := true; export := true |})));
    ("preferred_language", TextField
       (props "Preferred Language" false false false
         (Some ("Must be a valid ISO639 Language Code. For English you can enter either " ++ dquote ++ "en" ++ dquote ++ " or " ++ dquote ++ "eng" ++ dquote)%string)
         {| mapping := true; review := true; export := true |}));
    ("Remarks", TextField
       (props "Remarks" false false false
         (Some "Free text field")
         {| mapping := true; review := true; export := true |}));
    ("CostCentreNumber", TextField
       (props "Cost Centre Number" false false false
         (Some "Every entry in this column must also be in the [Number] Column in the sheet [CostCentres]")
         {| mapping := true; review := true; export := true |}));
    ("SupplierCode", TextField
       (props "Supplier Code" false false false
         (Some "Every entry in this column must also be in the [Code] Column in the sheet [Suppliers]")
         {| mapping := true; review := true; export := true |}));
    ("Timezone", OptionField
       (with_options ListTimeZoneFragment
        (props "Timezone" false false false
         (Some "Must be a valid time zone name from the IANA Time Zone Database, e.g. America/Toronto or Australia/Sydney")
         {| mapping := true; review := true; export := true |})))
  ].

Definition EmployeeRoles : Sheet :=
  new_Sheet "Employee Roles"
  [
    ("EmployeeId", ReferenceField
       (with_reference "Employees" "id" "has-many"
        (props "Employee Id" true true false
         (Some "Every entry in this column must also be in the [Id] Column in the sheet [Employees]. The contents of this sheet will be merged into any of the sheets [Employees, EmployeeUpdates] and only migrated when those sheets are migrated. It is not possible to migrate this data by itself.")
         {| mapping := true; review := true; export := true |})));
    ("Role", TextField
       (props "Role" true false false
         None
         {| mapping := true; review := true; export := true |}))
  ].

Definition EmployeeDepartments : Sheet :=
  new_Sheet "Employee Departments"
  [
    ("DepartmentCode", TextField
       (props "DepartmentCode" true false false
         (Some "Every entry in this column must also be in the [Code] Column in the sheet [Departments]. The contents of this sheet will be merged into any of the sheets [Employees, EmployeeUpdates] and only migrated when those sheets are migrated. It is not possible to migrate this data by itself.")
         {| mapping := true; review := true; export := true |}));
    ("EmployeeId", TextField
       (with_reference "Employees" "id" "has-many"
        (props "Employee Id" true false false
         (Some "Every entry in this column must also be in the [Id] Column in the sheet [Employees]. The contents of this sheet will be merged into any of the sheets [Employees, EmployeeUpdates] and only migrated when those sheets are migrated. It is not possible to migrate this data by itself.")
         {| mapping := true; review := true; export := true |})))
  ].

Definition EmployeeGroups : Sheet :=
  new_Sheet "Employee Groups"
  [
    ("EmployeeId", TextField
       (with_reference "Employees" "id" "has-many"
        (props "Employee Id" true false false
         (Some "Every entry in this column must also be in the [Id] Column in the sheet [Employees]. The contents of this sheet will be merged into any of the sheets [Employees, EmployeeUpdates] and only migrated when those sheets are migrated. It is not possible to migrate this data by itself.")
         {| mapping := true; review := true; export := true |})));
    ("GroupName", TextField
       (props "Group Name" true false false
         (Some "Every entry in this column must also be in the [Name] Column in the sheet [Groups]")
         {| mapping := true; review := true; export := true |}))
  ].

Definition AssociatedEmployees : Sheet :=
  new_Sheet "Associated Employees"
  [
    ("ClientId", TextField
       (props "Client Id" true true false
         (Some "Every entry in this column must also be in the [Id] Column in the sheet [Clients].")
         {| mapping := true; review := true; export := true |}));
    ("EmployeeId", TextField
       (with_reference "Employees" "id" "has-many"
        (props "Employee Id" true false false
         (Some "Every entry in this column must also be in the [Id] Column in the sheet [Employees]")
         {| mapping := true; review := true; export := true |})));
    ("Description", TextField
       (props "Description" false false false
         None
         {| mapping := true; review := true; export := true |}))
  ].


Definition basic : Workbook :=
  new_Workbook "Employees" "Employeesworkbook" "Employees"
    [ ("Employees", Employees);
      ("EmployeeRoles", EmployeeRoles);
      ("EmployeeDepartments", EmployeeDepartments);
      ("EmployeeGroups", EmployeeGroups);
      ("AssociatedEmployees", AssociatedEmployees) ].

(** The default export. *)
Definition space : SpaceConfig :=
  new_SpaceConfig "Employees" "Employeessc" [ ("basic", basic) ].

End Config.

End Schema.
Import Schema.

(** ** Observations used to state the properties *)

Section Observations.

Context {W : Type}.

(** [calls fns w rs w']: calling every check of [fns] once, from left to
    right, starting in world [w], returns the values [rs] (none of the calls
    throws) and leaves the world [w']. *)
Inductive calls : list (Check W) -> W -> list value -> W -> Prop :=
| calls_nil : forall w, calls [] w [] w
| calls_cons : forall fn fns w r w' rs w'',
    fn w = (Normal r, w') ->
    calls fns w' rs w'' ->
    calls (fn :: fns) w (r :: rs) w''.

(** A check keeps to its return type [void | Message]. *)
Definition void_or_Message (r : value) : Prop :=
  r = VUndefined \/ exists m, r = VMessage m.

(** The messages among the returned values, in order. *)
Definition messages_of (rs : list value) : list Message :=
  flat_map (fun r => match r with VMessage m => [m] | _ => [] end) rs.

(** Instrumentation: the check [fn], made to record the number [i] in a
    call log next to the world each time it is called. *)
Definition logged (i : nat) (fn : Check W) : Check (list nat * W) :=
  fun lw =>
    let (r, w') := fn (snd lw) in (r, (fst lw ++ [i], w')).

Fixpoint logged_from (i : nat) (fns : list (Check W))
  : list (Check (list nat * W)) :=
  match fns with
  | [] => []
  | fn :: fns' => logged i fn :: logged_from (S i) fns'
  end.

End Observations.

(** The two messages of the validators. *)
Definition invalid_email : Message :=
  new_Message "Invalid email address." "error" "validate".

Definition bad_format : Message :=
  new_Message "Value does not meet required format." "error" "validate".

(** Checks of the configuration used as instances: the second of
    [sample_checks] fails, the checks of [passing_checks] all pass. *)
Definition sample_checks : list (Check unit) :=
  [ validateRegex re_alnum (CString (js "AB12"));
    validateEmail (CString (js "abc"));
    validateRegex re_8_72 (CString (js "abcdefgh")) ].

Definition passing_checks : list (Check unit) :=
  [ validateRegex re_alnum (CString (js "AB12"));
    validateEmail (CString (js "a@b.com")) ].

(** The bound a quantifier puts on the number of repetitions. *)
Definition within (n : nat) (max : option nat) : bool :=
  match max with Some mx => n <=? mx | None => true end.

(** What is left of the pattern after the quantifier in both literals of
    the configuration: [$], then success. *)
Definition at_end (Input : jsstring) : RegExp.Continuation :=
  fun y => if y =? length Input then Some y else None.

(** The characters [[a-zA-Z0-9]] accepts. *)
Definition isAlphanumeric (ch : code_unit) : bool :=
  existsb (RegExp.inRange ch) [(97, 122); (65, 90); (48, 57)]%N.

Module SchemaQueries.
Import Schema.

Section Queries.

Context {W : Type}.

Fixpoint lookup {A : Type} (key : string) (l : list (string * A))
  : option A :=
  match l with
  | [] => None
  | (k, a) :: l' => if String.eqb key k then Some a else lookup key l'
  end.

Definition is_primary (kf : string * Field (W:=W)) : bool :=
  primary (config (snd kf)).

(** The names of the fields of a sheet that have [primary: true]. *)
Definition primary_keys (s : Sheet (W:=W)) : list string :=
  map fst (filter is_primary (sheet_fields s)).

Definition fully_visible (f : Field (W:=W)) : bool :=
  mapping (stageVisibility (config f))
  && review (stageVisibility (config f))
  && export (stageVisibility (config f)).

(** The field a [sheetKey]/[foreignKey] pair names in a workbook. *)
Definition target (wb : Workbook (W:=W)) (f : Field (W:=W))
  : option Field :=
  match sheetKey (config f), foreignKey (config f) with
  | Some sk, Some fk =>
      match lookup sk (sheets wb) with
      | Some s => lookup fk (sheet_fields s)
      | None => None
      end
  | _, _ => None
  end.

Definition is_ReferenceField (f : Field (W:=W)) : bool :=
  match ftype f with KReference => true | _ => false end.

(** A field that is a reference field, or that carries a [sheetKey], names
    a field of the workbook that is primary or unique. *)
Definition reference_ok (wb : Workbook (W:=W)) (f : Field (W:=W)) : bool :=
  match is_ReferenceField f, sheetKey (config f) with
  | false, None => true
  | _, _ =>
      match target wb f with
      | Some g => primary (config g) || unique (config g)
      | None => false
      end
  end.

Definition all_fields (wb : Workbook (W:=W)) : list (Field (W:=W)) :=
  flat_map (fun ks => map snd (sheet_fields (snd ks))) (sheets wb).

End Queries.

End SchemaQueries.
Import SchemaQueries.

(** ** Further observations *)

(** The type aliases of index.ts, lines 20-22, as sets of values.  The
    literal type [0] holds the number zero, of either sign. *)

(** [type Nil = null | undefined] *)
Definition Nil (x : value) : bool :=
  match x with VNull | VUndefined => true | _ => false end.

(** [type Falsy = null | undefined | false | '' | 0] *)
Definition Falsy (x : value) : bool :=
  match x with
  | VNull | VUndefined | VBool false | VString [] | VNumber (S754_zero _) =>
      true
  | _ => false
  end.

(** Checks used as instances: [untyped_checks] return values of any type,
    the second of [throwing_checks] throws. *)
Definition untyped_checks : list (Check unit) :=
  [ ret VNull; ret (VNumber (S754_zero false)); ret (VString []);
    ret (VBool false); ret VUndefined; ret (VMessage invalid_email) ].

Definition throwing_checks : list (Check unit) :=
  [ validateEmail (CString (js "abc"));
    validateEmail CNull;
    validateRegex re_8_72 (CString (js "abcdefg")) ].

Module HookQueries.
Import Schema.

Section Hooks.

Context {W : Type}.

(** The [validate] property of the field [key] of a sheet, if there is such
    a field and it has one. *)
Definition hook_of (s : Sheet (W:=W)) (key : string)
  : option (cell -> Eff W (list value)) :=
  match lookup key (sheet_fields s) with
  | Some f => validate (config f)
  | None => None
  end.

(** What the platform gets when it calls that hook on a cell. *)
Definition run_hook (s : Sheet (W:=W)) (key : string) (v : cell) (w : W)
  : option (completion (list value) * W) :=
  match hook_of s key with
  | Some hook => Some (hook v w)
  | None => None
  end.

Definition has_hook (f : Field (W:=W)) : bool :=
  match validate (config f) with Some _ => true | None => false end.


Definition is_key (f : Field (W:=W)) : bool :=
  primary (config f) || unique (config f).

Definition has_options (f : Field (W:=W)) : bool :=
  match options (config f) with Some _ => true | None => false end.

(** The field was built by the constructor of kind [k]. *)
Definition has_kind (k : FieldKind) (f : Field (W:=W)) : bool :=
  match k, ftype f with
  | KText, KText | KNumber, KNumber | KOption, KOption
  | KReference, KReference | KSmartDate, KSmartDate => true
  | _, _ => false
  end.

(** The option table of the field [key] of a sheet. *)
Definition options_of (s : Sheet (W:=W)) (key : string)
  : option (list (string * string)) :=
  match lookup key (sheet_fields s) with
  | Some f => options (config f)
  | None => None
  end.

(** The names of the fields of each sheet of a workbook that satisfy [p],
    under the name of the sheet. *)
Definition fields_where (p : Field (W:=W) -> bool) (wb : Workbook (W:=W))
  : list (string * list string) :=
  map (fun ks =>
         (sheet_name (snd ks),
          map fst (filter (fun kf => p (snd kf)) (sheet_fields (snd ks)))))
      (sheets wb).

End Hooks.

End HookQueries.
Import HookQueries.

(* ================================================================= *)
(** * Part II: the properties *)
(* ================================================================= *)

(** ** Guards *)

(** C7.  For every value [v], [isNil v] holds exactly when [isNull v] or
    [isUndefined v] holds or [v] is a string and is the empty string; and
    [isNull v] and [isUndefined v] never hold together. *)
Theorem isNil_characterisation :
  forall v : value,
    isNil v = (isNull v || isUndefined v || (isString v && strict_eq_empty v))
    /\ (isNil v = true <->
        isNull v = true \/ isUndefined v = true
        \/ (isString v = true /\ v = VString []))
    /\ isNull v && isUndefined v = false.
Proof.
  intro v. split; [reflexivity|]. split.
  - destruct v as [| |b|f|z|s|m|l|n]; cbn;
      try (split; [intro; auto | intros [H|[H|[H _]]]; congruence]).
    + destruct s; cbn.
      * split; auto.
      * split; [discriminate | intros [H|[H|[_ H]]]; congruence].
  - destruct v; reflexivity.
Qed.

(** C8.  For every value [v], [isTruthy v] is the negation of [isFalsy v]:
    no value satisfies both and none satisfies neither; [isFalsy] holds
    exactly for the number zero (of either sign), the number NaN, the
    boolean [false] and the nil values. *)
Theorem isTruthy_complement_of_isFalsy :
  forall v : value,
    isTruthy v = negb (isFalsy v)
    /\ isTruthy v && isFalsy v = false
    /\ isTruthy v || isFalsy v = true
    /\ (isFalsy v = true <->
        (exists sign, v = VNumber (S754_zero sign))
        \/ v = VNumber S754_nan
        \/ v = VBool false
        \/ isNil v = true).
Proof.
  intro v. unfold isTruthy.
  repeat split; try (destruct (isFalsy v); reflexivity).
  - destruct v as [| |b|f|z|s|m|l|n]; cbn; intro H; auto.
    + destruct b; [discriminate | auto].
    + destruct f; try discriminate; eauto.
  - intros [[sg ->]|[->|[->|H]]]; try reflexivity.
    unfold isFalsy. rewrite H. apply orb_true_r.
Qed.

(** ** The aggregator *)

Section Aggregator.

Context {W : Type}.

Lemma bind_Normal :
  forall (A B : Type) (m : Eff W A) (k : A -> Eff W B) w a w',
    m w = (Normal a, w') -> bind m k w = k a w'.
Proof. intros A B m k w a w' H. unfold bind. now rewrite H. Qed.

Lemma bind_Throw :
  forall (A B : Type) (m : Eff W A) (k : A -> Eff W B) w e w',
    m w = (Throw e, w') -> bind m k w = (Throw e, w').
Proof. intros A B m k w e w' H. unfold bind. now rewrite H. Qed.

(** The reduction appends the results of the calls to the accumulator. *)
Lemma reduce_calls :
  forall (fns : list (Check W)) w rs w',
    calls fns w rs w' ->
    forall acc,
      reduce (fun acc fn => r <- fn ;; ret (acc ++ [r])) fns acc w
      = (Normal (acc ++ rs), w').
Proof.
  induction 1 as [w | fn fns w r w' rs w'' Hfn _ IH]; intro acc; cbn.
  - now rewrite app_nil_r.
  - rewrite bind_Normal with (a := acc ++ [r]) (w' := w').
    + rewrite IH, <- app_assoc. reflexivity.
    + rewrite bind_Normal with (a := r) (w' := w'); auto.
Qed.

Lemma runValidations_calls :
  forall (fns : list (Check W)) w rs w',
    calls fns w rs w' ->
    runValidations fns w = (Normal (filter isNotNil rs), w').
Proof.
  intros fns w rs w' H. unfold runValidations.
  rewrite bind_Normal with (a := [] ++ rs) (w' := w'); auto.
  now apply reduce_calls.
Qed.

(** The reduction stops at the first call that throws: the checks after it
    are not called. *)
Lemma reduce_throw :
  forall (before after : list (Check W)) fn w rs w' e w'',
    calls before w rs w' ->
    fn w' = (Throw e, w'') ->
    forall acc,
      reduce (fun acc fn => r <- fn ;; ret (acc ++ [r]))
             (before ++ fn :: after) acc w
      = (Throw e, w'').
Proof.
  intros before after fn w rs w' e w'' Hb Hfn.
  induction Hb as [w | g fns w r w1 rs w2 Hg _ IH]; intro acc; cbn.
  - apply bind_Throw. now apply bind_Throw.
  - rewrite bind_Normal with (a := acc ++ [r]) (w' := w1).
    + now apply IH.
    + rewrite bind_Normal with (a := r) (w' := w1); auto.
Qed.

Lemma runValidations_throw :
  forall (before after : list (Check W)) fn w rs w' e w'',
    calls before w rs w' ->
    fn w' = (Throw e, w'') ->
    runValidations (before ++ fn :: after) w = (Throw e, w'').
Proof.
  intros before after fn w rs w' e w'' Hb Hfn. unfold runValidations.
  apply bind_Throw. now apply reduce_throw with (rs := rs) (w' := w').
Qed.

Lemma filter_void_or_Message :
  forall rs : list value,
    Forall void_or_Message rs ->
    filter isNotNil rs = map VMessage (messages_of rs).
Proof.
  induction 1 as [| r rs [-> | [m ->]] _ IH]; cbn.
  - reflexivity.
  - exact IH.
  - now rewrite IH.
Qed.

Lemma filter_all_undefined :
  forall rs : list value,
    Forall (fun r => r = VUndefined) rs -> filter isNotNil rs = [].
Proof.
  induction 1 as [| r rs -> _ IH]; cbn; [reflexivity | exact IH].
Qed.

(** The instrumented checks make the same calls and log their numbers. *)
Lemma calls_logged :
  forall (fns : list (Check W)) w rs w',
    calls fns w rs w' ->
    forall i log,
      calls (logged_from i fns) (log, w) rs
            (log ++ seq i (length fns), w').
Proof.
  induction 1 as [w | fn fns w r w' rs w'' Hfn _ IH]; intros i log; cbn.
  - rewrite app_nil_r. constructor.
  - apply calls_cons with (w' := (log ++ [i], w')).
    + unfold logged; cbn. now rewrite Hfn.
    + specialize (IH (S i) (log ++ [i])).
      now rewrite <- app_assoc in IH.
Qed.

End Aggregator.

(** Two checks that fail with the same message give two messages. *)
Example runValidations_keeps_duplicates :
  runValidations
    [validateEmail (CString (js "abc")); validateEmail (CString (js "abc"))]
    tt
  = (Normal [VMessage invalid_email; VMessage invalid_email], tt).
Proof. reflexivity. Qed.

(** C1.  When the supplied checks each return (a [Message] or nothing),
    [runValidations] returns the messages of the failed checks, in the order
    of the checks, each as often as it was returned; the world it leaves is
    the one reached by calling every check once from left to right, and the
    call log of the instrumented checks lists every check once, in the order
    supplied. *)
Theorem runValidations_calls_each_check_in_order :
  forall (W : Type) (fns : list (Check W)) (w : W) (rs : list value) (w' : W),
    calls fns w rs w' ->
    Forall void_or_Message rs ->
    runValidations fns w = (Normal (map VMessage (messages_of rs)), w')
    /\ runValidations (logged_from 0 fns) ([], w)
       = (Normal (map VMessage (messages_of rs)), (seq 0 (length fns), w')).
Proof.
  intros W fns w rs w' Hcalls Hty.
  rewrite <- (filter_void_or_Message Hty). split.
  - now apply runValidations_calls.
  - apply (runValidations_calls (calls_logged Hcalls 0 [])).
Qed.

(** C6.  [runValidations] applied to no check returns the empty array, and
    so it does whenever every supplied check returns nothing; the empty
    array is not a nil value. *)
Theorem runValidations_empty_when_all_pass :
  forall (W : Type) (fns : list (Check W)) (w : W) (rs : list value) (w' : W),
    calls fns w rs w' ->
    Forall (fun r => r = VUndefined) rs ->
    runValidations fns w = (Normal [], w')
    /\ runValidations [] w = (Normal [], w)
    /\ isNil (VArray []) = false.
Proof.
  intros W fns w rs w' Hcalls Hpass. repeat split.
  rewrite <- (filter_all_undefined Hpass).
  now apply runValidations_calls.
Qed.

(** ** Regular expression matching *)

Module RegExpFacts.
Import RegExp.

Lemma nth_error_skipn :
  forall (A : Type) (l : list A) (n : nat) (a : A),
    nth_error l n = Some a -> skipn n l = a :: skipn (S n) l.
Proof.
  induction l as [| b l IH]; intros [| n] a H; cbn in *; try discriminate.
  - now inversion H.
  - now apply IH.
Qed.

Section InputFacts.

Variable Input : jsstring.

Lemma RepeatMatcher_step :
  forall fuel m min max x c,
    max <> Some 0 ->
    RepeatMatcher (S fuel) m min max true x c
    = let d : Continuation := fun y =>
        if (min =? 0) && (y =? x) then None
        else RepeatMatcher fuel m (pred min) (option_map pred max) true y c in
      if negb (min =? 0) then m x d
      else match m x d with Some z => Some z | None => c x end.
Proof.
  intros fuel m min [[| mx] |] x c H; try reflexivity. congruence.
Qed.

(** A greedy quantifier over a one-character matcher, followed by [$]:
    it succeeds exactly when the rest of the input has an allowed length and
    consists of characters of the set. *)
Lemma CharacterSetMatcher_eq :
  forall (A : code_unit -> bool) (invert : bool) x c,
    CharacterSetMatcher Input A invert x c
    = match nth_error Input x with
      | None => None
      | Some ch => if xorb (A ch) invert then c (S x) else None
      end.
Proof. reflexivity. Qed.

Lemma within_pred :
  forall n max,
    max <> Some 0 -> 0 < n ->
    within (pred n) (option_map pred max) = within n max.
Proof.
  intros n [[| mx] |] Hmax Hn; cbn; try congruence; try reflexivity.
  destruct (Nat.leb_spec (pred n) mx), (Nat.leb_spec n (S mx));
    try reflexivity; lia.
Qed.

Lemma leb_pred :
  forall m n, 0 < n -> (pred m <=? pred n) = (m <=? n) || (m =? 0).
Proof.
  intros m n Hn.
  destruct (Nat.leb_spec (pred m) (pred n)), (Nat.leb_spec m n),
           (Nat.eqb_spec m 0); try reflexivity; lia.
Qed.

Lemma RepeatMatcher_CharacterSet_at_end :
  forall (A : code_unit -> bool) (invert : bool) fuel min max x,
    x <= length Input ->
    within min max = true ->
    min + (length Input - x) < fuel ->
    RepeatMatcher fuel (CharacterSetMatcher Input A invert) min max true x
                  (at_end Input)
    = if (min <=? length Input - x)
         && within (length Input - x) max
         && forallb (fun ch => xorb (A ch) invert) (skipn x Input)
      then Some (length Input) else None.
Proof.
  intros A invert.
  induction fuel as [| fuel IH]; intros min max x Hx Hmm Hfuel; [lia |].
  assert (Hdec : max = Some 0 \/ max <> Some 0)
    by (destruct max as [[| mx] |];
        [now left | right; congruence | right; congruence]).
  destruct Hdec as [-> | Hmax].
  - (* max = 0: the continuation is called at once *)
    cbn in Hmm. apply Nat.leb_le in Hmm. assert (min = 0) as -> by lia.
    cbn -[Nat.sub skipn]. unfold at_end.
    destruct (Nat.eqb_spec x (length Input)) as [-> | Hne].
    + rewrite Nat.sub_diag, skipn_all. reflexivity.
    + destruct (Nat.leb_spec (length Input - x) 0); [lia | reflexivity].
  - rewrite RepeatMatcher_step by assumption. cbv zeta.
    rewrite !CharacterSetMatcher_eq.
    destruct (nth_error Input x) as [ch |] eqn:Hnth.
    + (* a character is available *)
      assert (Hlt : x < length Input)
        by (apply nth_error_Some; congruence).
      rewrite (nth_error_skipn _ _ Hnth). cbn [forallb].
      assert (Hne : (S x =? x) = false) by (apply Nat.eqb_neq; lia).
      rewrite Hne, andb_false_r.
      assert (Hend : at_end Input x = None).
      { unfold at_end.
        destruct (Nat.eqb_spec x (length Input)); [lia | reflexivity]. }
      rewrite Hend.
      destruct (xorb (A ch) invert) eqn:Hch.
      * rewrite IH; try lia.
        -- replace (length Input - S x) with (pred (length Input - x))
             by lia.
           rewrite within_pred, leb_pred by (assumption || lia).
           cbn [andb].
           destruct min as [| min']; cbn [Nat.eqb negb Nat.leb orb].
           ++ now destruct (true && within (length Input - x) max
                            && forallb (fun ch0 => xorb (A ch0) invert)
                                       (skipn (S x) Input)).
           ++ rewrite orb_false_r. reflexivity.
        -- destruct max as [[| mx] |]; cbn in *; try congruence.
           apply Nat.leb_le in Hmm. apply Nat.leb_le. lia.
      * rewrite !andb_false_r. now destruct (negb (min =? 0)).
    + (* the end of the input *)
      apply nth_error_None in Hnth. assert (x = length Input) as -> by lia.
      rewrite Nat.sub_diag, skipn_all. cbn [forallb]. rewrite andb_true_r.
      destruct min as [| min']; cbn [Nat.eqb negb Nat.leb andb].
      * unfold at_end. rewrite Nat.eqb_refl.
        destruct max as [[| mx] |]; cbn; try reflexivity.
      * reflexivity.
Qed.

(** A pattern that starts with [^] can only match at index 0. *)
Lemma exec_loop_anchored :
  forall (m : Matcher) tries lastIndex,
    (forall x c, x <> 0 -> m x c = None) ->
    exec_loop m (S lastIndex) tries = None.
Proof.
  intros m tries. induction tries as [| tries IH]; intros i Hm; cbn.
  - reflexivity.
  - rewrite Hm by lia. now apply IH.
Qed.

End InputFacts.

(** The matcher of [/^X{min,max}$/]. *)
Lemma compile_anchored_repeat :
  forall Input atom min max x c,
    compile Input
            (alternative [AssertStart; Quant atom min max true; AssertEnd])
            x c
    = if x =? 0 then
        RepeatMatcher (S (min + (length Input - x)))
                      (compile Input atom) min max true x
                      (fun y => if y =? length Input then c y else None)
      else None.
Proof. reflexivity. Qed.

(** [/^X{min,max}$/] and [/^X+$/] for a one-character [X]. *)
Lemma test_anchored_repeat :
  forall (atom : regex) (A : code_unit -> bool) (invert : bool) min max S,
    (forall Input, compile Input atom = CharacterSetMatcher Input A invert) ->
    within min max = true ->
    test (alternative [AssertStart; Quant atom min max true; AssertEnd]) S
    = (min <=? length S) && within (length S) max
      && forallb (fun ch => xorb (A ch) invert) S.
Proof.
  intros atom A invert min max S Hatom Hmm.
  unfold test, exec. cbn [exec_loop].
  rewrite exec_loop_anchored.
  - rewrite compile_anchored_repeat, Hatom. cbn [Nat.eqb].
    change (fun y : MatchState => if y =? length S then Some y else None)
      with (at_end S).
    rewrite RepeatMatcher_CharacterSet_at_end; try assumption; try lia.
    rewrite Nat.sub_0_r. cbn [skipn].
    now destruct ((min <=? length S) && within (length S) max
                  && forallb (fun ch => xorb (A ch) invert) S).
  - intros x c Hx. rewrite compile_anchored_repeat.
    destruct (Nat.eqb_spec x 0); [contradiction | reflexivity].
Qed.

End RegExpFacts.

(** ** The validators *)

Section ValidatorFacts.

Context {W : Type}.

Lemma String_includes_char :
  forall (s : jsstring) (c : code_unit),
    String_includes s [c] = existsb (N.eqb c) s.
Proof.
  induction s as [| b s IH]; intro c; cbn.
  - reflexivity.
  - rewrite IH, andb_true_r. reflexivity.
Qed.

Lemma existsb_eqb_In :
  forall (s : jsstring) (c : code_unit),
    existsb (N.eqb c) s = true <-> In c s.
Proof.
  intros s c. rewrite existsb_exists. split.
  - intros [x [Hin Heq]]. apply N.eqb_eq in Heq. now subst.
  - intro Hin. exists c. split; [assumption | apply N.eqb_refl].
Qed.

(** The email check on a string: it fails exactly when no code unit of the
    string is [@]. *)
Lemma validateEmail_string :
  forall (s : jsstring) (w : W),
    validateEmail (CString s) w
    = (Normal (if existsb (N.eqb 64) s then VUndefined
               else VMessage invalid_email), w).
Proof.
  intros s w. unfold validateEmail, call_includes, bind, ret.
  change (js "@") with [64%N]. rewrite String_includes_char.
  now destruct (existsb (N.eqb 64) s).
Qed.

(** The pattern check on any cell: the regular expression is tested on the
    text of the cell. *)
Lemma validateRegex_test :
  forall (r : RegExp.regex) (v : cell) (w : W),
    validateRegex r v w
    = (Normal (if RegExp.test r (ToString v) then VUndefined
               else VMessage bad_format), w).
Proof.
  intros r v w. unfold validateRegex, call_test, bind, ret.
  now destruct (RegExp.test r (ToString v)).
Qed.

(** [/^.{8,72}$/] accepts the strings of 8 to 72 code units none of which is
    a line terminator. *)
Lemma test_re_8_72 :
  forall s : jsstring,
    RegExp.test re_8_72 s
    = (8 <=? length s) && (length s <=? 72)
      && forallb (fun ch => negb (RegExp.isLineTerminator ch)) s.
Proof.
  intro s. unfold re_8_72.
  rewrite RegExpFacts.test_anchored_repeat
    with (A := fun ch => negb (RegExp.isLineTerminator ch))
         (invert := false);
    [| reflexivity | reflexivity].
  unfold within. f_equal.
  induction s as [| ch s IH]; cbn [forallb]; [reflexivity |].
  now rewrite IH, xorb_false_r.
Qed.

(** [/^[a-zA-Z0-9]+$/] accepts the non-empty strings of letters and
    digits. *)
Lemma test_re_alnum :
  forall s : jsstring,
    RegExp.test re_alnum s = (1 <=? length s) && forallb isAlphanumeric s.
Proof.
  intro s. unfold re_alnum.
  rewrite RegExpFacts.test_anchored_repeat
    with (A := isAlphanumeric) (invert := false);
    [| reflexivity | reflexivity].
  unfold within. rewrite andb_true_r. f_equal.
  induction s as [| ch s IH]; cbn [forallb]; [reflexivity |].
  now rewrite IH, xorb_false_r.
Qed.

Lemma validateRegex_re_8_72 :
  forall (s : jsstring) (w : W),
    validateRegex re_8_72 (CString s) w
    = (Normal
         (if (8 <=? length s) && (length s <=? 72)
             && forallb (fun ch => negb (RegExp.isLineTerminator ch)) s
          then VUndefined else VMessage bad_format), w).
Proof. intros s w. now rewrite validateRegex_test, <- test_re_8_72. Qed.

Lemma validateRegex_re_alnum :
  forall (s : jsstring) (w : W),
    validateRegex re_alnum (CString s) w
    = (Normal
         (if (1 <=? length s) && forallb isAlphanumeric s
          then VUndefined else VMessage bad_format), w).
Proof. intros s w. now rewrite validateRegex_test, <- test_re_alnum. Qed.

(** Strings that are too short or too long fail the password pattern. *)
Corollary validateRegex_re_8_72_length :
  forall (s : jsstring) (w : W),
    length s < 8 \/ 72 < length s ->
    validateRegex re_8_72 (CString s) w = (Normal (VMessage bad_format), w).
Proof.
  intros s w H. rewrite validateRegex_re_8_72.
  destruct (Nat.leb_spec 8 (length s)), (Nat.leb_spec (length s) 72);
    try reflexivity; lia.
Qed.

(** The absent values are outside the parameter type of the validators:
    the email check throws on them and the pattern check tests the words
    [null] and [undefined]. *)
Lemma validators_on_absent_values :
  forall (r : RegExp.regex) (w : W),
    validateEmail CNull w = (Throw TypeError, w)
    /\ validateEmail CUndefined w = (Throw TypeError, w)
    /\ validateRegex r CNull w = validateRegex r (CString (js "null")) w
    /\ validateRegex r CUndefined w
       = validateRegex r (CString (js "undefined")) w.
Proof. intros r w. repeat split. Qed.

End ValidatorFacts.

(** C4.  The email check returns nothing for ["a@b.com"]; for every string
    without the character [@], ["abc"] among them, it returns the message
    with text "Invalid email address.", kind error and stage validate. *)
Theorem validateEmail_at_sign :
  forall (W : Type) (w : W) (s : jsstring),
    ~ In 64%N s ->
    validateEmail (CString (js "a@b.com")) w = (Normal VUndefined, w)
    /\ validateEmail (CString s) w
       = (Normal
            (VMessage (new_Message "Invalid email address." "error"
                                   "validate")), w)
    /\ validateEmail (CString (js "abc")) w
       = (Normal
            (VMessage (new_Message "Invalid email address." "error"
                                   "validate")), w).
Proof.
  intros W w s Hs. repeat split.
  rewrite validateEmail_string.
  destruct (existsb (N.eqb 64) s) eqn:E; [| reflexivity].
  apply existsb_eqb_In in E. contradiction.
Qed.

(** C2, as the program has it.  The empty string is the one nil value of the
    validators' parameter type.  On it the email check returns the message
    "Invalid email address." and the pattern check, with either regular
    expression of the configuration, returns the message "Value does not
    meet required format."; none of these calls throws. *)
Theorem validators_on_empty_string :
  forall (W : Type) (w : W),
    isNil (value_of_cell (CString [])) = true
    /\ validateEmail (CString []) w = (Normal (VMessage invalid_email), w)
    /\ validateRegex re_8_72 (CString []) w
       = (Normal (VMessage bad_format), w)
    /\ validateRegex re_alnum (CString []) w
       = (Normal (VMessage bad_format), w).
Proof. intros W w. repeat split. Qed.

(** C2 fails on [null]: the email check throws a TypeError, and the pattern
    check with [/^[a-zA-Z0-9]+$/] passes, because the word [null] is made of
    letters. *)
Lemma validators_on_null_counterexample :
  isNil (value_of_cell CNull) = true
  /\ validateEmail CNull tt = (Throw TypeError, tt)
  /\ validateRegex re_alnum CNull tt = (Normal VUndefined, tt).
Proof. repeat split. Qed.

(** C5, as the program has it.  With [/^.{8,72}$/] the pattern check passes
    the strings of 8 to 72 code units that hold no line terminator and fails
    every other string, so every string of 7 or of 73 code units fails; with
    [/^[a-zA-Z0-9]+$/] it passes ["AB12"] and fails ["AB-12"] and the empty
    string.  Every failure is the message "Value does not meet required
    format." of kind error and stage validate. *)
Theorem validateRegex_configured_patterns :
  forall (W : Type) (w : W) (s : jsstring),
    validateRegex re_8_72 (CString s) w
    = (Normal
         (if (8 <=? length s) && (length s <=? 72)
             && forallb (fun ch => negb (RegExp.isLineTerminator ch)) s
          then VUndefined
          else VMessage (new_Message "Value does not meet required format."
                                     "error" "validate")), w)
    /\ validateRegex re_alnum (CString (js "AB12")) w = (Normal VUndefined, w)
    /\ validateRegex re_alnum (CString (js "AB-12")) w
       = (Normal (VMessage bad_format), w)
    /\ validateRegex re_alnum (CString []) w
       = (Normal (VMessage bad_format), w).
Proof.
  intros W w s. split; [apply validateRegex_re_8_72 |]. repeat split.
Qed.

(** C5 fails on a string of 8 characters that holds a line feed: [.] does
    not match a line terminator, so the check with [/^.{8,72}$/] returns the
    message. *)
Lemma validateRegex_newline_counterexample :
  length (js "abcd" ++ [10%N] ++ js "efg") = 8
  /\ validateRegex re_8_72 (CString (js "abcd" ++ [10%N] ++ js "efg")) tt
     = (Normal (VMessage bad_format), tt).
Proof. split; reflexivity. Qed.

(** ** The configuration *)

Section SchemaFacts.

Context {W : Type}.
Variables countries zones : list (string * string).

(** X19.  The keys of every object literal of the configuration are
    distinct: the five sheets of the workbook have different keys and no
    sheet names a field twice, so no property overwrites an earlier one. *)
Lemma keys_distinct :
  NoDup (map fst (sheets (basic (W:=W) countries zones)))
  /\ Forall (fun ks => NoDup (map fst (sheet_fields (snd ks))))
            (sheets (basic (W:=W) countries zones)).
Proof.
  split; [| repeat apply Forall_cons; try apply Forall_nil];
    repeat (apply NoDup_cons;
            [cbn; intuition discriminate |]); apply NoDup_nil.
Qed.

(** The validation hooks of the Employees sheet. *)
Lemma hooks_of_Employees :
  forall key f,
    lookup key (sheet_fields (Employees (W:=W) countries zones)) = Some f ->
    validate (config f)
    = if String.eqb key "EmailAddress" then
        Some (fun value => runValidations [validateEmail value])
      else if String.eqb key "Password" then
        Some (fun value => runValidations [validateRegex re_8_72 value])
      else if String.eqb key "PayrollId" || String.eqb key "SINNumber"
              || String.eqb key "CertificationNumber" then
        Some (fun value => runValidations [validateRegex re_alnum value])
      else None.
Proof.
  intros key f. unfold Employees, sheet_fields, lookup.
  repeat match goal with
         | |- context [String.eqb key ?k] =>
             destruct (String.eqb_spec key k) as [-> | _];
             [intro H; inversion H; reflexivity |]
         end.
  discriminate.
Qed.

(** The hook of the field EmailAddress runs the email check alone. *)
Lemma EmailAddress_hook :
  forall f (s : jsstring) (w : W),
    lookup "EmailAddress" (sheet_fields (Employees (W:=W) countries zones))
    = Some f ->
    exists hook,
      validate (config f) = Some hook
      /\ hook (CString s) w
         = (Normal (if existsb (N.eqb 64) s then []
                    else [VMessage invalid_email]), w).
Proof.
  intros f s w Hf. rewrite (hooks_of_Employees _ Hf). cbn [String.eqb].
  eexists. split; [reflexivity |].
  unfold runValidations, reduce, bind at 1 2, ret.
  unfold bind at 1. rewrite validateEmail_string.
  now destruct (existsb (N.eqb 64) s).
Qed.

End SchemaFacts.

(** C3, as the program has it.  No sheet of the workbook has more than one
    field with [primary: true]: Employees has one ([id]), Employee Roles has
    one ([EmployeeId]), Associated Employees has one ([ClientId]), and
    Employee Departments and Employee Groups have none. *)
Theorem primary_fields_of_the_workbook :
  forall (W : Type) (countries zones : list (string * string)),
    map (fun ks => (sheet_name (snd ks), primary_keys (snd ks)))
        (sheets (basic (W:=W) countries zones))
    = [ ("Employees", ["id"]);
        ("Employee Roles", ["EmployeeId"]);
        ("Employee Departments", []);
        ("Employee Groups", []);
        ("Associated Employees", ["ClientId"]) ]%string
    /\ Forall (fun ks => length (primary_keys (snd ks)) <= 1)
              (sheets (basic (W:=W) countries zones)).
Proof.
  intros W countries zones. split; [reflexivity |].
  repeat constructor.
Qed.

(** C3 fails on the sheet Employee Departments (and on Employee Groups):
    none of its fields has [primary: true]. *)
Lemma no_primary_field_counterexample :
  sheet_name (EmployeeDepartments (W:=unit)) = "Employee Departments"%string
  /\ In ("EmployeeDepartments"%string, EmployeeDepartments (W:=unit))
        (sheets (basic (W:=unit) [] []))
  /\ filter is_primary (sheet_fields (EmployeeDepartments (W:=unit))) = []
  /\ length (primary_keys (EmployeeDepartments (W:=unit))) <> 1.
Proof.
  repeat split; [cbn; tauto | discriminate].
Qed.

(** C9.  Every reference field of the workbook, and every field that carries
    a [sheetKey], names a field of the workbook that is primary or unique.
    The workbook has one reference field, [EmployeeId] of the sheet Employee
    Roles; it names the field [id] of the sheet Employees, which has
    [primary: true] and [unique: true]. *)
Theorem reference_fields_target_a_key :
  forall (W : Type) (countries zones : list (string * string)),
    forallb (reference_ok (basic (W:=W) countries zones))
            (all_fields (basic (W:=W) countries zones)) = true
    /\ map (fun ks => (sheet_name (snd ks),
                       map fst (filter (fun kf => is_ReferenceField (snd kf))
                                       (sheet_fields (snd ks)))))
           (sheets (basic (W:=W) countries zones))
       = [ ("Employees", []);
           ("Employee Roles", ["EmployeeId"]);
           ("Employee Departments", []);
           ("Employee Groups", []);
           ("Associated Employees", []) ]%string
    /\ exists f g : Field (W:=W),
         lookup "EmployeeId" (sheet_fields EmployeeRoles) = Some f
         /\ sheetKey (config f) = Some "Employees"%string
         /\ foreignKey (config f) = Some "id"%string
         /\ lookup "Employees" (sheets (basic (W:=W) countries zones))
            = Some (Employees countries zones)
         /\ sheet_name (Employees (W:=W) countries zones)
            = "Employees"%string
         /\ lookup "id" (sheet_fields (Employees countries zones)) = Some g
         /\ target (basic countries zones) f = Some g
         /\ primary (config g) = true
         /\ unique (config g) = true.
Proof.
  intros W countries zones. split; [reflexivity |]. split; [reflexivity |].
  do 2 eexists. repeat split.
Qed.

(** C10.  Every one of the 54 fields of the workbook has the stage
    visibility [mapping: true], [review: true], [export: true]. *)
Theorem every_field_visible_at_every_stage :
  forall (W : Type) (countries zones : list (string * string)),
    Forall (fun f : Field (W:=W) =>
              stageVisibility (config f)
              = {| mapping := true; review := true; export := true |})
           (all_fields (basic countries zones))
    /\ forallb fully_visible (all_fields (basic (W:=W) countries zones))
       = true
    /\ length (all_fields (basic (W:=W) countries zones)) = 54.
Proof.
  intros W countries zones. split; [| split; reflexivity].
  repeat constructor.
Qed.

(** ** Instances *)

Lemma runValidations_calls_each_check_in_order_witness :
  calls sample_checks tt [VUndefined; VMessage invalid_email; VUndefined] tt
  /\ Forall void_or_Message
            [VUndefined; VMessage invalid_email; VUndefined]
  /\ runValidations sample_checks tt = (Normal [VMessage invalid_email], tt)
  /\ runValidations (logged_from 0 sample_checks) ([], tt)
     = (Normal [VMessage invalid_email], ([0; 1; 2], tt)).
Proof.
  assert (Hcalls : calls sample_checks tt
                     [VUndefined; VMessage invalid_email; VUndefined] tt).
  { repeat (eapply calls_cons; [reflexivity |]). apply calls_nil. }
  assert (Hty : Forall void_or_Message
                  [VUndefined; VMessage invalid_email; VUndefined]).
  { apply Forall_cons; [now left |].
    apply Forall_cons; [right; now exists invalid_email |].
    apply Forall_cons; [now left | apply Forall_nil]. }
  split; [exact Hcalls |]. split; [exact Hty |].
  exact (runValidations_calls_each_check_in_order Hcalls Hty).
Defined.

Lemma runValidations_empty_when_all_pass_witness :
  calls passing_checks tt [VUndefined; VUndefined] tt
  /\ Forall (fun r => r = VUndefined) [VUndefined; VUndefined]
  /\ runValidations passing_checks tt = (Normal [], tt)
  /\ runValidations (W:=unit) [] tt = (Normal [], tt)
  /\ isNil (VArray []) = false.
Proof.
  assert (Hcalls : calls passing_checks tt [VUndefined; VUndefined] tt).
  { repeat (eapply calls_cons; [reflexivity |]). apply calls_nil. }
  assert (Hpass : Forall (fun r => r = VUndefined) [VUndefined; VUndefined]).
  { repeat (apply Forall_cons; [reflexivity |]). apply Forall_nil. }
  split; [exact Hcalls |]. split; [exact Hpass |].
  exact (runValidations_empty_when_all_pass Hcalls Hpass).
Defined.

Lemma validateEmail_at_sign_witness :
  ~ In 64%N (js "workday.example")
  /\ validateEmail (CString (js "a@b.com")) tt = (Normal VUndefined, tt)
  /\ validateEmail (CString (js "workday.example")) tt
     = (Normal (VMessage invalid_email), tt)
  /\ validateEmail (CString (js "abc")) tt
     = (Normal (VMessage invalid_email), tt).
Proof.
  assert (H : ~ In 64%N (js "workday.example"))
    by (cbn; intuition discriminate).
  split; [exact H |].
  exact (@validateEmail_at_sign unit tt (js "workday.example") H).
Defined.

(* ================================================================= *)
(** * Part III: further properties of the code *)
(* ================================================================= *)

(** ** Guards and their declared types *)

(** X1.  [isNil] is declared as a guard for the type [Nil] and [isFalsy] as
    a guard for the type [Falsy].  Both hold on every value of their type;
    [isNil] holds on one more value, the empty string, and [isFalsy] on one
    more, the number NaN. *)
Theorem guards_against_declared_types :
  forall v : value,
    isNil v = Nil v || strict_eq_empty v
    /\ (isNil v = true /\ Nil v = false <-> v = VString [])
    /\ isFalsy v = Falsy v || Number_isNaN v
    /\ (isFalsy v = true /\ Falsy v = false <-> v = VNumber S754_nan).
Proof.
  intro v. split; [| split; [| split]].
  - destruct v; reflexivity.
  - split.
    + intros [H1 H2]. destruct v as [| |b|f|z|s|m|l|n]; try discriminate.
      destruct s; [reflexivity | discriminate].
    + intros ->. split; reflexivity.
  - destruct v as [| |b|f|z|s|m|l|n]; try reflexivity;
      try (destruct f; reflexivity); try (destruct s; reflexivity).
  - split.
    + intros [H1 H2].
      destruct v as [| |b|f|z|s|m|l|n]; try discriminate;
        try (destruct b; discriminate); try (destruct s; discriminate).
      destruct f; try discriminate. reflexivity.
    + intros ->. split; reflexivity.
Qed.

(** X2.  How the guards relate.  A nil value is falsy and a truthy value is
    not nil; no value is both a string and a number, and a number is never
    nil; a string is falsy exactly when it is nil, that is, empty; the
    values that are falsy without being nil are the two zeros, NaN and
    [false]. *)
Theorem guard_relations :
  forall v : value,
    implb (isNil v) (isFalsy v) = true
    /\ implb (isTruthy v) (isNotNil v) = true
    /\ isString v && isNumber v = false
    /\ isNumber v && isNil v = false
    /\ implb (isString v) (Bool.eqb (isFalsy v) (isNil v)) = true
    /\ (isFalsy v = true /\ isNotNil v = true <->
        (exists sign, v = VNumber (S754_zero sign))
        \/ v = VNumber S754_nan \/ v = VBool false).
Proof.
  intro v. split; [| split; [| split; [| split; [| split]]]].
  - unfold isFalsy. destruct (isNil v); [apply orb_true_r | reflexivity].
  - unfold isTruthy, isNotNil, isFalsy.
    destruct (isNil v); [now rewrite orb_true_r |].
    now destruct (negb _).
  - destruct v; reflexivity.
  - destruct v; reflexivity.
  - destruct v as [| |b|f|z|s|m|l|n]; try reflexivity.
    destruct s; reflexivity.
  - split.
    + intros [H1 H2].
      destruct v as [| |b|f|z|s|m|l|n]; try discriminate;
        try (destruct s; discriminate).
      * destruct b; [discriminate | auto].
      * destruct f; try discriminate; eauto.
    + intros [[sg ->] | [-> | ->]]; split; reflexivity.
Qed.

(** ** The aggregator on arbitrary checks *)

Section AggregatorMore.

Context {W : Type}.

(** If the reduction returns, every check was called and returned. *)
Lemma reduce_Normal_inv :
  forall (fns : list (Check W)) acc w r w',
    reduce (fun acc fn => r <- fn ;; ret (acc ++ [r])) fns acc w
    = (Normal r, w') ->
    exists rs, calls fns w rs w' /\ r = acc ++ rs.
Proof.
  induction fns as [| fn fns IH]; intros acc w r w' H; cbn in H.
  - inversion H; subst. exists []. split; [constructor |].
    now rewrite app_nil_r.
  - unfold bind at 1 2 in H.
    destruct (fn w) as [[v | e] w1] eqn:Hfn; cbn in H; [| discriminate].
    apply IH in H. destruct H as [rs [Hc ->]].
    exists (v :: rs). split.
    + now apply calls_cons with (w' := w1).
    + now rewrite <- app_assoc.
Qed.

(** If the reduction throws, one of the checks threw, after the checks
    before it had returned. *)
Lemma reduce_Throw_inv :
  forall (fns : list (Check W)) (acc : list value) w e w',
    reduce (fun acc fn => r <- fn ;; ret (acc ++ [r])) fns acc w
    = (Throw e, w') ->
    exists before fn after rs w1,
      fns = before ++ fn :: after
      /\ calls before w rs w1
      /\ fn w1 = (Throw e, w').
Proof.
  induction fns as [| fn fns IH]; intros acc w e w' H; cbn in H.
  - discriminate.
  - unfold bind at 1 2 in H.
    destruct (fn w) as [[v | e1] w1] eqn:Hfn; cbn in H.
    + apply IH in H.
      destruct H as (before & g & after & rs & w2 & -> & Hc & Hg).
      exists (fn :: before), g, after, (v :: rs), w2. repeat split.
      * now apply calls_cons with (w' := w1).
      * exact Hg.
    + inversion H; subst.
      exists [], fn, fns, [], w. repeat split; [constructor | exact Hfn].
Qed.

Lemma runValidations_Normal_inv :
  forall (fns : list (Check W)) w r w',
    runValidations fns w = (Normal r, w') ->
    exists rs, calls fns w rs w' /\ r = filter isNotNil rs.
Proof.
  intros fns w r w' H. unfold runValidations in H. unfold bind at 1 in H.
  destruct (reduce (fun acc fn => r <- fn ;; ret (acc ++ [r])) fns [] w)
    as [[arr | e] w1] eqn:Hr; [| discriminate].
  inversion H; subst.
  apply reduce_Normal_inv in Hr. destruct Hr as [rs [Hc ->]].
  exists rs. now split.
Qed.

Lemma runValidations_Throw_inv :
  forall (fns : list (Check W)) w e w',
    runValidations fns w = (Throw e, w') ->
    exists before fn after rs w1,
      fns = before ++ fn :: after
      /\ calls before w rs w1
      /\ fn w1 = (Throw e, w').
Proof.
  intros fns w e w' H. unfold runValidations in H. unfold bind at 1 in H.
  destruct (reduce (fun acc fn => r <- fn ;; ret (acc ++ [r])) fns [] w)
    as [[arr | e1] w1] eqn:Hr; [discriminate |].
  inversion H; subst. now apply reduce_Throw_inv in Hr.
Qed.

Lemma calls_app :
  forall (fns1 fns2 : list (Check W)) w rs1 w1 rs2 w2,
    calls fns1 w rs1 w1 ->
    calls fns2 w1 rs2 w2 ->
    calls (fns1 ++ fns2) w (rs1 ++ rs2) w2.
Proof.
  induction 1 as [w | fn fns w r w' rs w'' Hfn _ IH]; intro H2; cbn.
  - exact H2.
  - apply calls_cons with (w' := w'); [exact Hfn | now apply IH].
Qed.

Lemma calls_length :
  forall (fns : list (Check W)) w rs w',
    calls fns w rs w' -> length rs = length fns.
Proof. induction 1; cbn; congruence. Qed.

Lemma logged_from_app :
  forall (fns1 fns2 : list (Check W)) i,
    logged_from i (fns1 ++ fns2)
    = logged_from i fns1 ++ logged_from (i + length fns1) fns2.
Proof.
  induction fns1 as [| fn fns1 IH]; intros fns2 i; cbn.
  - now rewrite Nat.add_0_r.
  - rewrite IH. now rewrite Nat.add_succ_r.
Qed.

(** A single check. *)
Lemma runValidations_single :
  forall (fn : Check W) w r w',
    fn w = (Normal r, w') ->
    runValidations [fn] w = (Normal (if isNotNil r then [r] else []), w').
Proof.
  intros fn w r w' H.
  rewrite runValidations_calls with (rs := [r]) (w' := w').
  - reflexivity.
  - apply calls_cons with (w' := w'); [exact H | constructor].
Qed.

Lemma runValidations_single_Throw :
  forall (fn : Check W) w e w',
    fn w = (Throw e, w') -> runValidations [fn] w = (Throw e, w').
Proof.
  intros fn w e w' H.
  change [fn] with ([] ++ fn :: @nil (Check W)).
  apply runValidations_throw with (rs := []) (w' := w);
    [constructor | exact H].
Qed.

End AggregatorMore.

Lemma isNotNil_true_iff :
  forall v : value,
    isNotNil v = true <-> v <> VUndefined /\ v <> VNull /\ v <> VString [].
Proof.
  intro v. split.
  - intro H. repeat split; intros ->; discriminate.
  - intros (H1 & H2 & H3). destruct v as [| |b|f|z|s|m|l|n]; try reflexivity;
      try congruence.
    destruct s; [congruence | reflexivity].
Qed.

Lemma filter_isNotNil_nil_iff :
  forall rs : list value,
    filter isNotNil rs = [] <-> Forall (fun r => isNil r = true) rs.
Proof.
  induction rs as [| r rs IH]; cbn.
  - split; [constructor | reflexivity].
  - unfold isNotNil at 1. destruct (isNil r) eqn:E; cbn.
    + rewrite IH. split.
      * now constructor.
      * now inversion 1.
    + split; [discriminate |]. inversion 1. congruence.
Qed.

Lemma filter_length_le :
  forall (A : Type) (p : A -> bool) (l : list A),
    length (filter p l) <= length l.
Proof.
  induction l as [| a l IH]; cbn; [lia |].
  destruct (p a); cbn; lia.
Qed.

(** X3.  Whatever the checks return, [runValidations] returns the returned
    values that are none of [undefined], [null] and the empty string, in the
    order of the checks: it drops these three and keeps every other value,
    whether it is a [Message] or not. *)
Theorem runValidations_filters_nil_results :
  forall (W : Type) (fns : list (Check W)) (w : W) (rs : list value) (w' : W),
    calls fns w rs w' ->
    exists result,
      runValidations fns w = (Normal result, w')
      /\ result = filter isNotNil rs
      /\ (forall v, In v result <->
                    In v rs /\ v <> VUndefined /\ v <> VNull
                    /\ v <> VString []).
Proof.
  intros W fns w rs w' H. exists (filter isNotNil rs).
  split; [now apply runValidations_calls |]. split; [reflexivity |].
  intro v. rewrite filter_In, isNotNil_true_iff. reflexivity.
Qed.

(** X4.  When a check throws, [runValidations] throws the same exception
    and the checks after it are not called: the call log of the instrumented
    checks stops at the check that threw. *)
Theorem runValidations_stops_at_first_throw :
  forall (W : Type) (before after : list (Check W)) (fn : Check W)
         (w : W) (rs : list value) (w' : W) (e : thrown) (w'' : W),
    calls before w rs w' ->
    fn w' = (Throw e, w'') ->
    runValidations (before ++ fn :: after) w = (Throw e, w'')
    /\ runValidations (logged_from 0 (before ++ fn :: after)) ([], w)
       = (Throw e, (seq 0 (S (length before)), w'')).
Proof.
  intros W before after fn w rs w' e w'' Hb Hfn. split.
  - now apply runValidations_throw with (rs := rs) (w' := w').
  - rewrite logged_from_app. cbn [logged_from].
    apply runValidations_throw
      with (rs := rs) (w' := (seq 0 (length before), w')).
    + apply (calls_logged Hb 0 []).
    + unfold logged. cbn [fst snd]. rewrite Hfn, seq_S. reflexivity.
Qed.

(** X5.  If [runValidations] returns, then every check was called and
    returned, the result holds the non-nil values among those returned, it
    has at most as many elements as there are checks, and none of its
    elements is nil. *)
Theorem runValidations_returns_only_if_every_check_returns :
  forall (W : Type) (fns : list (Check W)) (w : W) (r : list value) (w' : W),
    runValidations fns w = (Normal r, w') ->
    exists rs,
      calls fns w rs w'
      /\ r = filter isNotNil rs
      /\ length r <= length fns
      /\ Forall (fun v => isNil v = false) r.
Proof.
  intros W fns w r w' H.
  apply runValidations_Normal_inv in H. destruct H as [rs [Hc ->]].
  exists rs. repeat split; try assumption.
  - rewrite <- (calls_length Hc). apply filter_length_le.
  - apply Forall_forall. intros v Hv. apply filter_In in Hv.
    destruct Hv as [_ Hv]. unfold isNotNil in Hv.
    now destruct (isNil v).
Qed.

(** X6.  If [runValidations] throws, then one of the checks threw that
    exception, after the checks before it had returned, and the world is the
    one that check left. *)
Theorem runValidations_throws_only_if_a_check_throws :
  forall (W : Type) (fns : list (Check W)) (w : W) (e : thrown) (w' : W),
    runValidations fns w = (Throw e, w') ->
    exists before fn after rs w1,
      fns = before ++ fn :: after
      /\ calls before w rs w1
      /\ fn w1 = (Throw e, w').
Proof. intros W fns w e w' H. now apply runValidations_Throw_inv. Qed.

(** X7.  Running two lists of checks one after the other gives the same as
    running their concatenation: the results are concatenated. *)
Theorem runValidations_app :
  forall (W : Type) (fns1 fns2 : list (Check W)) (w w1 w2 : W)
         (r1 r2 : list value),
    runValidations fns1 w = (Normal r1, w1) ->
    runValidations fns2 w1 = (Normal r2, w2) ->
    runValidations (fns1 ++ fns2) w = (Normal (r1 ++ r2), w2).
Proof.
  intros W fns1 fns2 w w1 w2 r1 r2 H1 H2.
  apply runValidations_Normal_inv in H1, H2.
  destruct H1 as [rs1 [Hc1 ->]]. destruct H2 as [rs2 [Hc2 ->]].
  rewrite <- filter_app.
  apply runValidations_calls. now apply calls_app with (w1 := w1).
Qed.

(** X8.  When the checks return, the result of [runValidations] is empty
    exactly when every returned value is nil. *)
Theorem runValidations_empty_iff_all_nil :
  forall (W : Type) (fns : list (Check W)) (w : W) (rs : list value) (w' : W),
    calls fns w rs w' ->
    (runValidations fns w = (Normal [], w')
     <-> Forall (fun r => isNil r = true) rs).
Proof.
  intros W fns w rs w' H. rewrite (runValidations_calls H).
  rewrite <- filter_isNotNil_nil_iff. split.
  - now inversion 1.
  - now intros ->.
Qed.

(** ** The validators and the hooks that use them *)

(** X9.  The email check passes exactly the strings that hold the character
    [@]: where it stands, how often it occurs and what surrounds it make no
    difference. *)
Theorem validateEmail_passes_iff_at_sign :
  forall (W : Type) (w : W) (s : jsstring),
    (validateEmail (CString s) w = (Normal VUndefined, w) <-> In 64%N s)
    /\ (forall before after : jsstring,
          validateEmail (CString (before ++ 64%N :: after)) w
          = (Normal VUndefined, w)).
Proof.
  intros W w s. split.
  - rewrite validateEmail_string, <- existsb_eqb_In.
    destruct (existsb (N.eqb 64) s); split; congruence.
  - intros before after. rewrite validateEmail_string.
    assert (H : existsb (N.eqb 64) (before ++ 64%N :: after) = true)
      by (apply existsb_eqb_In, in_elt).
    now rewrite H.
Qed.

Lemma isAlphanumeric_ranges :
  forall ch : code_unit,
    isAlphanumeric ch = true <->
    (97 <= ch <= 122 \/ 65 <= ch <= 90 \/ 48 <= ch <= 57)%N.
Proof.
  intro ch. unfold isAlphanumeric, RegExp.inRange. cbn [existsb fst snd].
  rewrite !orb_true_iff, !andb_true_iff, !N.leb_le. intuition discriminate.
Qed.

(** X10.  With [/^[a-zA-Z0-9]+$/] the pattern check passes exactly the
    non-empty strings all of whose code units are letters [a-z], [A-Z] or
    digits [0-9]; every other string gets the message "Value does not meet
    required format.". *)
Theorem validateRegex_alnum_characterisation :
  forall (W : Type) (w : W) (s : jsstring),
    (validateRegex re_alnum (CString s) w = (Normal VUndefined, w) <->
     s <> []
     /\ Forall (fun ch => 97 <= ch <= 122 \/ 65 <= ch <= 90
                          \/ 48 <= ch <= 57)%N s)
    /\ (validateRegex re_alnum (CString s) w = (Normal VUndefined, w)
        \/ validateRegex re_alnum (CString s) w
           = (Normal (VMessage bad_format), w)).
Proof.
  intros W w s. rewrite validateRegex_re_alnum.
  assert (Hall : forallb isAlphanumeric s = true <->
                 Forall (fun ch => 97 <= ch <= 122 \/ 65 <= ch <= 90
                                   \/ 48 <= ch <= 57)%N s).
  { rewrite forallb_forall, Forall_forall. split; intros H ch Hin.
    - now apply isAlphanumeric_ranges, H.
    - now apply isAlphanumeric_ranges, H. }
  split.
  - destruct ((1 <=? length s) && forallb isAlphanumeric s) eqn:E.
    + apply andb_true_iff in E. destruct E as [E1 E2].
      apply Nat.leb_le in E1. split; [| reflexivity]. intros _. split.
      * intros ->. cbn in E1. lia.
      * now apply Hall.
    + split; [discriminate |]. intros [Hne Hf]. apply Hall in Hf.
      rewrite Hf, andb_true_r in E. apply Nat.leb_gt in E.
      destruct s; [congruence | cbn in E; lia].
  - destruct ((1 <=? length s) && forallb isAlphanumeric s); auto.
Qed.

Section HookFacts.

Context {W : Type}.
Variables countries zones : list (string * string).

Lemma hook_of_EmailAddress :
  hook_of (Employees (W:=W) countries zones) "EmailAddress"
  = Some (fun value => runValidations [validateEmail value]).
Proof. reflexivity. Qed.

Lemma hook_of_Password :
  hook_of (Employees (W:=W) countries zones) "Password"
  = Some (fun value => runValidations [validateRegex re_8_72 value]).
Proof. reflexivity. Qed.

Lemma hook_of_alnum :
  forall key,
    In key ["PayrollId"; "SINNumber"; "CertificationNumber"]%string ->
    hook_of (Employees (W:=W) countries zones) key
    = Some (fun value => runValidations [validateRegex re_alnum value]).
Proof.
  intros key [<- | [<- | [<- | []]]]; reflexivity.
Qed.

Lemma run_hook_eq :
  forall (s : Sheet (W:=W)) key hook v w,
    hook_of s key = Some hook -> run_hook s key v w = Some (hook v w).
Proof. intros s key hook v w H. unfold run_hook. now rewrite H. Qed.

Lemma run_validateRegex :
  forall r v (w : W),
    runValidations [validateRegex r v] w
    = (Normal (if RegExp.test r (ToString v) then []
               else [VMessage bad_format]), w).
Proof.
  intros r v w.
  rewrite runValidations_single
    with (r := if RegExp.test r (ToString v) then VUndefined
               else VMessage bad_format) (w' := w).
  - now destruct (RegExp.test r (ToString v)).
  - rewrite validateRegex_test. reflexivity.
Qed.

End HookFacts.

(** X11.  The hook of the field EmailAddress never throws on a string: it
    returns the empty array when the string holds an [@] and the one-element
    array with the message "Invalid email address." otherwise, and it leaves
    the world as it is. *)
Theorem EmailAddress_hook_on_strings :
  forall (W : Type) (countries zones : list (string * string))
         (s : jsstring) (w : W),
    run_hook (Employees countries zones) "EmailAddress" (CString s) w
    = Some (Normal (if existsb (N.eqb 64) s then []
                    else [VMessage invalid_email]), w).
Proof.
  intros W countries zones s w.
  rewrite run_hook_eq with (1 := hook_of_EmailAddress countries zones).
  f_equal.
  rewrite runValidations_single
    with (r := if existsb (N.eqb 64) s then VUndefined
               else VMessage invalid_email) (w' := w).
  - now destruct (existsb (N.eqb 64) s).
  - apply validateEmail_string.
Qed.

(** X12.  The hook of the field Password returns the empty array for a
    string of 8 to 72 code units without a line terminator, and the
    one-element array with the message "Value does not meet required
    format." for every other string. *)
Theorem Password_hook_on_strings :
  forall (W : Type) (countries zones : list (string * string))
         (s : jsstring) (w : W),
    run_hook (Employees countries zones) "Password" (CString s) w
    = Some (Normal
              (if (8 <=? length s) && (length s <=? 72)
                  && forallb (fun ch => negb (RegExp.isLineTerminator ch)) s
               then [] else [VMessage bad_format]), w).
Proof.
  intros W countries zones s w.
  rewrite run_hook_eq with (1 := hook_of_Password countries zones).
  rewrite run_validateRegex. cbn [ToString]. now rewrite test_re_8_72.
Qed.

(** X13.  The fields PayrollId, SINNumber and CertificationNumber have the
    same hook: it returns the empty array for a non-empty string of letters
    and digits and the one-element array with the message "Value does not
    meet required format." for every other string. *)
Theorem alphanumeric_hooks_on_strings :
  forall (W : Type) (countries zones : list (string * string))
         (s : jsstring) (w : W),
    Forall (fun key =>
              run_hook (Employees countries zones) key (CString s) w
              = Some (Normal
                        (if (1 <=? length s) && forallb isAlphanumeric s
                         then [] else [VMessage bad_format]), w))
           ["PayrollId"; "SINNumber"; "CertificationNumber"]%string.
Proof.
  intros W countries zones s w. apply Forall_forall. intros key Hkey.
  rewrite run_hook_eq with (1 := hook_of_alnum countries zones Hkey).
  rewrite run_validateRegex. cbn [ToString]. now rewrite test_re_alnum.
Qed.

(** X14.  The hooks on an absent cell.  The hook of EmailAddress throws a
    TypeError on [null] and on [undefined].  The hooks with a pattern do not
    throw: they test the words "null" and "undefined", so the alphanumeric
    hooks accept both, and the Password hook rejects [null] (4 characters)
    and accepts [undefined] (9 characters). *)
Theorem hooks_on_absent_values :
  forall (W : Type) (countries zones : list (string * string)) (w : W),
    run_hook (Employees countries zones) "EmailAddress" CNull w
    = Some (Throw TypeError, w)
    /\ run_hook (Employees countries zones) "EmailAddress" CUndefined w
       = Some (Throw TypeError, w)
    /\ run_hook (Employees countries zones) "Password" CNull w
       = Some (Normal [VMessage bad_format], w)
    /\ run_hook (Employees countries zones) "Password" CUndefined w
       = Some (Normal [], w)
    /\ Forall (fun key =>
                 run_hook (Employees countries zones) key CNull w
                 = Some (Normal [], w)
                 /\ run_hook (Employees countries zones) key CUndefined w
                    = Some (Normal [], w))
              ["PayrollId"; "SINNumber"; "CertificationNumber"]%string.
Proof.
  intros W countries zones w.
  split; [reflexivity |]. split; [reflexivity |].
  split; [reflexivity |]. split; [reflexivity |].
  repeat (apply Forall_cons; [split; reflexivity |]). apply Forall_nil.
Qed.

(** ** More on the configuration *)

(** X15.  In the whole workbook only five fields have a [validate] hook,
    all of them text fields of the sheet Employees: EmailAddress, Password,
    PayrollId, SINNumber and CertificationNumber. *)
Theorem fields_with_hooks :
  forall (W : Type) (countries zones : list (string * string)),
    fields_where has_hook (basic (W:=W) countries zones)
    = [ ("Employees",
         ["EmailAddress"; "Password"; "PayrollId"; "SINNumber";
          "CertificationNumber"]);
        ("Employee Roles", []);
        ("Employee Departments", []);
        ("Employee Groups", []);
        ("Associated Employees", []) ]%string
    /\ forallb (fun f => implb (has_hook f) (has_kind KText f))
               (all_fields (basic (W:=W) countries zones)) = true.
Proof. intros W countries zones. split; reflexivity. Qed.

(** X16.  Every field that is primary or unique is also required.  The
    unique fields are [id] and [EmailAddress] of Employees; the required
    fields are the six of Employees listed below, both fields of Employee
    Roles, of Employee Departments and of Employee Groups, and [ClientId]
    and [EmployeeId] of Associated Employees. *)
Theorem key_fields_are_required :
  forall (W : Type) (countries zones : list (string * string)),
    forallb (fun f => implb (is_key f) (required (config f)))
            (all_fields (basic (W:=W) countries zones)) = true
    /\ fields_where (fun f => unique (config f))
                    (basic (W:=W) countries zones)
       = [ ("Employees", ["id"; "EmailAddress"]);
           ("Employee Roles", []);
           ("Employee Departments", []);
           ("Employee Groups", []);
           ("Associated Employees", []) ]%string
    /\ fields_where (fun f => required (config f))
                    (basic (W:=W) countries zones)
       = [ ("Employees",
            ["id"; "FirstName"; "LastName"; "EmailAddress"; "Password";
             "Status"]);
           ("Employee Roles", ["EmployeeId"; "Role"]);
           ("Employee Departments", ["DepartmentCode"; "EmployeeId"]);
           ("Employee Groups", ["EmployeeId"; "GroupName"]);
           ("Associated Employees", ["ClientId"; "EmployeeId"]) ]%string.
Proof. intros W countries zones. repeat split. Qed.

(** X17.  The properties that go with a kind of field.  A field has an
    option table exactly when it is an option field, and a format string
    exactly when it is a date field, in which case the format is
    [yyyy-MM-dd].  The seven option fields are in Employees; Country and
    Timezone take the imported tables whole, and the five tables written out
    are not empty and have distinct keys. *)
Theorem kind_specific_properties :
  forall (W : Type) (countries zones : list (string * string)),
    Forall (fun f : Field (W:=W) =>
              has_options f = has_kind KOption f
              /\ fString (config f)
                 = if has_kind KSmartDate f then Some "yyyy-MM-dd"%string
                   else None)
           (all_fields (basic countries zones))
    /\ fields_where (has_kind KOption) (basic (W:=W) countries zones)
       = [ ("Employees",
            ["Country"; "Gender"; "Status"; "DefaultEmployeeAvailability";
             "SubmitVisitAttachments"; "TravelMode"; "Timezone"]);
           ("Employee Roles", []);
           ("Employee Departments", []);
           ("Employee Groups", []);
           ("Associated Employees", []) ]%string
    /\ options_of (Employees (W:=W) countries zones) "Country"
       = Some countries
    /\ options_of (Employees (W:=W) countries zones) "Timezone" = Some zones
    /\ Forall (fun key =>
                 exists table,
                   options_of (Employees (W:=W) countries zones) key
                   = Some table
                   /\ table <> []
                   /\ NoDup (map fst table))
              ["Gender"; "Status"; "DefaultEmployeeAvailability";
               "SubmitVisitAttachments"; "TravelMode"]%string.
Proof.
  intros W countries zones.
  split; [repeat (apply Forall_cons; [split; reflexivity |]);
          apply Forall_nil |].
  split; [reflexivity |]. split; [reflexivity |]. split; [reflexivity |].
  repeat (apply Forall_cons;
          [eexists; split; [reflexivity |]; split; [discriminate |];
           repeat (apply NoDup_cons; [cbn; intuition discriminate |]);
           apply NoDup_nil |]).
  apply Forall_nil.
Qed.


(** ** Instances of the further properties *)

Lemma runValidations_filters_nil_results_witness :
  calls untyped_checks tt
        [VNull; VNumber (S754_zero false); VString []; VBool false;
         VUndefined; VMessage invalid_email] tt
  /\ exists result,
       runValidations untyped_checks tt = (Normal result, tt)
       /\ result
          = filter isNotNil
                   [VNull; VNumber (S754_zero false); VString [];
                    VBool false; VUndefined; VMessage invalid_email]
       /\ (forall v,
             In v result <->
             In v [VNull; VNumber (S754_zero false); VString [];
                   VBool false; VUndefined; VMessage invalid_email]
             /\ v <> VUndefined /\ v <> VNull /\ v <> VString []).
Proof.
  assert (H : calls untyped_checks tt
                [VNull; VNumber (S754_zero false); VString []; VBool false;
                 VUndefined; VMessage invalid_email] tt).
  { repeat (eapply calls_cons; [reflexivity |]). apply calls_nil. }
  split; [exact H |].
  exact (@runValidations_filters_nil_results unit untyped_checks tt _ tt H).
Defined.

Lemma runValidations_stops_at_first_throw_witness :
  calls [validateEmail (CString (js "abc"))] tt [VMessage invalid_email] tt
  /\ validateEmail CNull tt = (Throw TypeError, tt)
  /\ runValidations throwing_checks tt = (Throw TypeError, tt)
  /\ runValidations (logged_from 0 throwing_checks) ([], tt)
     = (Throw TypeError, ([0; 1], tt)).
Proof.
  assert (H1 : calls [validateEmail (W:=unit) (CString (js "abc"))] tt
                 [VMessage invalid_email] tt).
  { eapply calls_cons; [reflexivity | apply calls_nil]. }
  assert (H2 : validateEmail (W:=unit) CNull tt = (Throw TypeError, tt))
    by reflexivity.
  split; [exact H1 |]. split; [exact H2 |].
  exact (@runValidations_stops_at_first_throw unit _
           [validateRegex re_8_72 (CString (js "abcdefg"))] _ _ _ _ _ _
           H1 H2).
Defined.

Lemma runValidations_returns_only_if_every_check_returns_witness :
  runValidations sample_checks tt = (Normal [VMessage invalid_email], tt)
  /\ exists rs,
       calls sample_checks tt rs tt
       /\ [VMessage invalid_email] = filter isNotNil rs
       /\ length [VMessage invalid_email] <= length sample_checks
       /\ Forall (fun v => isNil v = false) [VMessage invalid_email].
Proof.
  assert (H : runValidations sample_checks tt
              = (Normal [VMessage invalid_email], tt)) by reflexivity.
  split; [exact H |].
  exact (@runValidations_returns_only_if_every_check_returns
           unit sample_checks tt [VMessage invalid_email] tt H).
Defined.

Lemma runValidations_throws_only_if_a_check_throws_witness :
  runValidations throwing_checks tt = (Throw TypeError, tt)
  /\ exists before fn after rs w1,
       throwing_checks = before ++ fn :: after
       /\ calls before tt rs w1
       /\ fn w1 = (Throw TypeError, tt).
Proof.
  assert (H : runValidations throwing_checks tt = (Throw TypeError, tt))
    by reflexivity.
  split; [exact H |].
  exact (@runValidations_throws_only_if_a_check_throws
           unit throwing_checks tt TypeError tt H).
Defined.

Lemma runValidations_app_witness :
  runValidations sample_checks tt = (Normal [VMessage invalid_email], tt)
  /\ runValidations untyped_checks tt
     = (Normal [VNumber (S754_zero false); VBool false;
                VMessage invalid_email], tt)
  /\ runValidations (sample_checks ++ untyped_checks) tt
     = (Normal ([VMessage invalid_email]
                ++ [VNumber (S754_zero false); VBool false;
                    VMessage invalid_email]), tt).
Proof.
  assert (H1 : runValidations sample_checks tt
               = (Normal [VMessage invalid_email], tt)) by reflexivity.
  assert (H2 : runValidations untyped_checks tt
               = (Normal [VNumber (S754_zero false); VBool false;
                          VMessage invalid_email], tt)) by reflexivity.
  split; [exact H1 |]. split; [exact H2 |].
  exact (@runValidations_app unit sample_checks untyped_checks _ _ _ _ _
           H1 H2).
Defined.

Lemma runValidations_empty_iff_all_nil_witness :
  calls passing_checks tt [VUndefined; VUndefined] tt
  /\ (runValidations passing_checks tt = (Normal [], tt)
      <-> Forall (fun r => isNil r = true) [VUndefined; VUndefined]).
Proof.
  assert (H : calls passing_checks tt [VUndefined; VUndefined] tt).
  { repeat (eapply calls_cons; [reflexivity |]). apply calls_nil. }
  split; [exact H |].
  exact (@runValidations_empty_iff_all_nil unit passing_checks tt _ tt H).
Defined.
